(** * The AWS infrastructure config validator

    A shallow embedding of [pkg/controller/infrastructure/configvalidator.go]
    ([Validate] and [validateVPC]) and the properties of the validation report
    it returns.

    The validator talks to three collaborators (the credential resolver, the
    AWS client factory and the AWS client) and to its logger.  Each call is an
    operation of a small free monad [Prog]; an interpreter [run] threads the
    state of the outside world through a handler and records every call with
    its answer, in order.  Statements about what was or was not fetched are
    statements about that record. *)

From Stdlib Require Import List String Bool Arith Lia.
Import ListNotations.
Open Scope string_scope.
Open Scope list_scope.

Set Implicit Arguments.

(* ------------------------------------------------------------------------- *)
(** ** k8s.io/apimachinery/pkg/util/validation/field *)

Module field.

(** [field.ErrorType]. *)
Inductive ErrorType :=
| ErrorTypeNotFound
| ErrorTypeRequired
| ErrorTypeDuplicate
| ErrorTypeInvalid
| ErrorTypeNotSupported
| ErrorTypeForbidden
| ErrorTypeTooLong
| ErrorTypeTooMany
| ErrorTypeInternal.

Definition ErrorType_eqb (a b : ErrorType) : bool :=
  match a, b with
  | ErrorTypeNotFound, ErrorTypeNotFound
  | ErrorTypeRequired, ErrorTypeRequired
  | ErrorTypeDuplicate, ErrorTypeDuplicate
  | ErrorTypeInvalid, ErrorTypeInvalid
  | ErrorTypeNotSupported, ErrorTypeNotSupported
  | ErrorTypeForbidden, ErrorTypeForbidden
  | ErrorTypeTooLong, ErrorTypeTooLong
  | ErrorTypeTooMany, ErrorTypeTooMany
  | ErrorTypeInternal, ErrorTypeInternal => true
  | _, _ => false
  end.

(** [*field.Path]: the names from the root down; the validator never uses
    an index or a key.  A [nil] pointer is [None]. *)
Definition Path := list string.

(** [field.NewPath(name, moreNames...)]. *)
Definition NewPath (name : string) (moreNames : list string) : Path :=
  name :: moreNames.

(** [Path.String()] of a path that is not [nil]: the names joined by dots. *)
Fixpoint String (p : Path) : string :=
  match p with
  | [] => ""
  | [name] => name
  | name :: rest => name ++ "." ++ String rest
  end.

(** [field.Error].  [Field] keeps the path pointer the finding was built
    from ([None] when the caller passed [nil]); [BadValue] is the
    [interface{}] value, here [nil] or a string. *)
Record Error := mkError {
  Type_ : ErrorType;
  Field : option Path;
  BadValue : option string;
  Detail : string
}.

Definition ErrorList := list Error.

(** [field.NotFound(field, value)]. *)
Definition NotFound (fld : option Path) (value : string) : Error :=
  mkError ErrorTypeNotFound fld (Some value) "".

(** [field.Invalid(field, value, detail)]. *)
Definition Invalid (fld : option Path) (value : string) (detail : string) : Error :=
  mkError ErrorTypeInvalid fld (Some value) detail.

(** [field.InternalError(field, err)]; [err] is the text [err.Error()] of the
    error passed. *)
Definition InternalError (fld : option Path) (err : string) : Error :=
  mkError ErrorTypeInternal fld None err.

(** The findings of one kind, in report order. *)
Definition ofType (t : ErrorType) (l : ErrorList) : ErrorList :=
  filter (fun e => ErrorType_eqb (Type_ e) t) l.

End field.

(* ------------------------------------------------------------------------- *)
(** ** The resources the validator reads *)

(** [corev1.SecretReference]. *)
Record SecretReference := {
  SecretName : string;
  SecretNamespace : string
}.

(** [extensionsv1alpha1.InfrastructureSpec]: the provider config (raw bytes,
    absent when the pointer is [nil]), the region and the secret reference. *)
Record InfrastructureSpec := {
  ProviderConfig : option string;
  Region : string;
  SecretRef : SecretReference
}.

(** [extensionsv1alpha1.Infrastructure]. *)
Record Infrastructure := {
  Name : string;
  Namespace : string;
  Spec : InfrastructureSpec
}.

(** [apisaws.VPC], [apisaws.Networks] and [apisaws.InfrastructureConfig]:
    the fields [Validate] reads.  [ID] is a [*string]. *)
Record VPC := { ID : option string }.
Record Networks := { VPC_ : VPC }.
Record InfrastructureConfig := { Networks_ : Networks }.

(** [aws.Credentials]; the two byte slices are converted with [string(...)]
    before they are used, which keeps the bytes. *)
Record Credentials := {
  AccessKeyID : string;
  SecretAccessKey : string
}.

(* ------------------------------------------------------------------------- *)
(** ** Calls to the collaborators *)

Section Calls.

(** [context.Context], Go's [error] as the collaborators return it, and the
    handle of an AWS client ([awsclient.Interface]). *)
Variables (context error Client : Type).

(** The calls [Validate] issues.  The Kubernetes client [c.Client()], the
    factory [c.awsClientFactory] and the logger belong to the validator and
    are the same for every call; the handler stands for them. *)
Inductive Call :=
| GetCredentialsFromSecretRef (ctx : context) (secretRef : SecretReference)
    (allowDNSKeys : bool)
| NewClient (accessKeyID secretAccessKey region : string)
| GetVPCAttribute (awsClient : Client) (ctx : context) (vpcID attribute : string)
| GetVPCInternetGateway (awsClient : Client) (ctx : context) (vpcID : string)
| LoggerInfo (msg : string).

(** What each call returns: Go's pair of a value and an error, where the
    error is [None] for [nil]. *)
Definition Resp (c : Call) : Type :=
  match c with
  | GetCredentialsFromSecretRef _ _ _ => (Credentials * option error)%type
  | NewClient _ _ _ => (Client * option error)%type
  | GetVPCAttribute _ _ _ _ => (bool * option error)%type
  | GetVPCInternetGateway _ _ _ => (string * option error)%type
  | LoggerInfo _ => unit
  end.

(** One performed call with its answer. *)
Inductive Event :=
| EvGetCredentialsFromSecretRef (ctx : context) (secretRef : SecretReference)
    (allowDNSKeys : bool) (credentials : Credentials) (err : option error)
| EvNewClient (accessKeyID secretAccessKey region : string)
    (awsClient : Client) (err : option error)
| EvGetVPCAttribute (awsClient : Client) (ctx : context) (vpcID attribute : string)
    (value : bool) (err : option error)
| EvGetVPCInternetGateway (awsClient : Client) (ctx : context) (vpcID : string)
    (internetGatewayID : string) (err : option error)
| EvLoggerInfo (msg : string).

Definition event (c : Call) : Resp c -> Event :=
  match c return Resp c -> Event with
  | GetCredentialsFromSecretRef ctx ref dns =>
      fun r => EvGetCredentialsFromSecretRef ctx ref dns (fst r) (snd r)
  | NewClient k s region => fun r => EvNewClient k s region (fst r) (snd r)
  | GetVPCAttribute cl ctx vpcID attribute =>
      fun r => EvGetVPCAttribute cl ctx vpcID attribute (fst r) (snd r)
  | GetVPCInternetGateway cl ctx vpcID =>
      fun r => EvGetVPCInternetGateway cl ctx vpcID (fst r) (snd r)
  | LoggerInfo msg => fun _ => EvLoggerInfo msg
  end.

(** The call an event answers, and the error it returned. *)
Definition query (e : Event) : Call :=
  match e with
  | EvGetCredentialsFromSecretRef ctx ref dns _ _ =>
      GetCredentialsFromSecretRef ctx ref dns
  | EvNewClient k s region _ _ => NewClient k s region
  | EvGetVPCAttribute cl ctx vpcID attribute _ _ =>
      GetVPCAttribute cl ctx vpcID attribute
  | EvGetVPCInternetGateway cl ctx vpcID _ _ => GetVPCInternetGateway cl ctx vpcID
  | EvLoggerInfo msg => LoggerInfo msg
  end.

Definition failure (e : Event) : option error :=
  match e with
  | EvGetCredentialsFromSecretRef _ _ _ _ err => err
  | EvNewClient _ _ _ _ err => err
  | EvGetVPCAttribute _ _ _ _ _ err => err
  | EvGetVPCInternetGateway _ _ _ _ err => err
  | EvLoggerInfo _ => None
  end.

Definition isAttributeFetch (e : Event) : bool :=
  match e with EvGetVPCAttribute _ _ _ _ _ _ => true | _ => false end.

Definition isGatewayFetch (e : Event) : bool :=
  match e with EvGetVPCInternetGateway _ _ _ _ _ => true | _ => false end.

(** The calls that reach the cloud provider: the methods of the AWS client. *)
Definition isCloudCall (e : Event) : bool :=
  isAttributeFetch e || isGatewayFetch e.

(** *** Programs *)

Inductive Prog (A : Type) :=
| Ret (a : A)
| Vis (c : Call) (k : Resp c -> Prog A).

Arguments Ret {A} a.

Fixpoint bind {A B} (p : Prog A) (f : A -> Prog B) : Prog B :=
  match p with
  | Ret a => f a
  | Vis c k => Vis c (fun r => bind (k r) f)
  end.

Definition call (c : Call) : Prog (Resp c) := Vis c (fun r => Ret r).

(** A handler answers a call in a state of the world and moves the world on;
    it is free to answer the same call differently each time. *)
Definition Handler (W : Type) := forall c : Call, W -> Resp c * W.

Fixpoint run {W A} (h : Handler W) (p : Prog A) (w : W) : A * W * list Event :=
  match p with
  | Ret a => (a, w, [])
  | Vis c k =>
      let (r, w1) := h c w in
      let '(a, w2, tr) := run h (k r) w1 in
      (a, w2, event c r :: tr)
  end.

(** *** A [for ... range] loop whose body may [return] *)

Inductive Flow (S R : Type) :=
| Next (s : S)
| Return (r : R).

Arguments Next {S R} s.
Arguments Return {S R} r.

(** [forRange xs body s after]: run [body] on each element of [xs] with the
    loop's variables [s]; a [Return] leaves the function, the end of the
    range goes on with [after]. *)
Fixpoint forRange {X S R} (xs : list X) (body : X -> S -> Prog (Flow S R))
    (s : S) (after : S -> Prog R) : Prog R :=
  match xs with
  | [] => after s
  | x :: rest =>
      bind (body x s) (fun f =>
        match f with
        | Next s1 => forRange rest body s1 after
        | Return r => Ret r
        end)
  end.

End Calls.

Arguments Ret {context error Client A} a.
Arguments Next {S R} s.
Arguments Return {S R} r.
Arguments EvLoggerInfo {context error Client} msg.
Arguments LoggerInfo {context Client} msg.
Arguments NewClient {context Client} accessKeyID secretAccessKey region.
Arguments GetCredentialsFromSecretRef {context Client} ctx secretRef allowDNSKeys.
Arguments GetVPCAttribute {context Client} awsClient ctx vpcID attribute.
Arguments GetVPCInternetGateway {context Client} awsClient ctx vpcID.
Arguments call {context error Client} c.
Arguments event {context error Client} c _.
Arguments EvGetCredentialsFromSecretRef {context error Client}.
Arguments EvNewClient {context error Client}.
Arguments EvGetVPCAttribute {context error Client}.
Arguments EvGetVPCInternetGateway {context error Client}.

Declare Scope prog_scope.
Delimit Scope prog_scope with prog.
Notation "x <- p ;; q" := (bind p (fun x => q))
  (at level 61, p at next level, right associativity) : prog_scope.
Notation "' pat <- p ;; q" := (bind p (fun x => match x with pat => q end))
  (at level 61, pat pattern, p at next level, right associativity) : prog_scope.
Notation "p ;;; q" := (bind p (fun _ => q))
  (at level 61, right associativity) : prog_scope.

(* ------------------------------------------------------------------------- *)
(** ** The validator *)

Section ConfigValidator.

Variables (context error Client : Type).

(** [err.Error()], the text [fmt] prints for an error under [%+v], and
    [awsclient.IsNotFoundError]. *)
Variable ErrorText : error -> string.
Variable FormatPlusV : error -> string.
Variable IsNotFoundError : error -> bool.

(** [helper.InfrastructureConfigFromInfrastructure]: decodes the provider
    config of the resource. *)
Variable InfrastructureConfigFromInfrastructure :
  Infrastructure -> InfrastructureConfig * option error.

Local Abbreviation Prog := (Prog context error Client).
Local Open Scope prog_scope.

Definition validateVPC (ctx : context) (awsClient : Client) (vpcID : string)
    (fldPath : option field.Path) : Prog field.ErrorList :=
  let allErrs : field.ErrorList := [] in
  (* Verify that the VPC exists and the enableDnsSupport and
     enableDnsHostnames VPC attributes are both true *)
  forRange ["enableDnsSupport"; "enableDnsHostnames"]
    (fun attribute allErrs =>
       '(value, err) <- call (GetVPCAttribute awsClient ctx vpcID attribute) ;;
       match err with
       | Some err =>
           if IsNotFoundError err then
             Ret (Return (allErrs ++ [field.NotFound fldPath vpcID]))
           else
             Ret (Return (allErrs ++ [field.InternalError fldPath
               ("could not get VPC attribute " ++ attribute ++ " for VPC "
                  ++ vpcID ++ ": " ++ ErrorText err)%string]))
       | None =>
           if negb value then
             Ret (Next (allErrs ++ [field.Invalid fldPath vpcID
               ("VPC attribute " ++ attribute ++ " must be set to true")%string]))
           else
             Ret (Next allErrs)
       end)
    allErrs
    (* Verify that there is an internet gateway attached to the VPC *)
    (fun allErrs =>
       '(internetGatewayID, err) <- call (GetVPCInternetGateway awsClient ctx vpcID) ;;
       match err with
       | Some err =>
           Ret (allErrs ++ [field.InternalError fldPath
             ("could not get internet gateway for VPC " ++ vpcID ++ ": "
                ++ ErrorText err)%string])
       | None =>
           if String.eqb internetGatewayID "" then
             Ret (allErrs ++ [field.Invalid fldPath vpcID
               "no attached internet gateway found"])
           else
             Ret allErrs
       end).

Definition Validate (ctx : context) (infra : Infrastructure) : Prog field.ErrorList :=
  let allErrs : field.ErrorList := [] in
  (* Get provider config from the infrastructure resource *)
  let '(config, err) := InfrastructureConfigFromInfrastructure infra in
  match err with
  | Some err => Ret (allErrs ++ [field.InternalError None (ErrorText err)])
  | None =>
  (* Create AWS client *)
  '(credentials, err) <-
     call (GetCredentialsFromSecretRef ctx (SecretRef (Spec infra)) false) ;;
  match err with
  | Some err =>
      Ret (allErrs ++ [field.InternalError None
        ("could not get AWS credentials: " ++ FormatPlusV err)%string])
  | None =>
  '(awsClient, err) <-
     call (NewClient (AccessKeyID credentials) (SecretAccessKey credentials)
             (Region (Spec infra))) ;;
  match err with
  | Some err =>
      Ret (allErrs ++ [field.InternalError None
        ("could not create AWS client: " ++ FormatPlusV err)%string])
  | None =>
  (* Validate infrastructure config *)
  match ID (VPC_ (Networks_ config)) with
  | Some vpcID =>
      call (LoggerInfo "Validating infrastructure networks.vpc.id") ;;;
      errs <- validateVPC ctx awsClient vpcID
                (Some (field.NewPath "networks" ["vpc"; "id"])) ;;
      Ret (allErrs ++ errs)
  | None => Ret allErrs
  end
  end end end.

End ConfigValidator.

(** The path [Validate] hands to [validateVPC]. *)
Definition networks_vpc_id : field.Path := field.NewPath "networks" ["vpc"; "id"].

(* ------------------------------------------------------------------------- *)
(** ** The fixture of configvalidator_test.go *)

Module Fixture.

Definition name := "infrastructure".
Definition namespace := "shoot--foobar--aws".
Definition region := "eu-west-1".
Definition vpcID := "vpc-123456".
Definition accessKeyID := "accessKeyID".
Definition secretAccessKey := "secretAccessKey".

(** The errors of the test: [awserr.New(code, message, nil)] and
    [errors.New(text)]. *)
Inductive error :=
| awserrNew (code message : string)
| errorsNew (text : string).

Definition ErrorText (e : error) : string :=
  match e with
  | awserrNew code message => (code ++ ": " ++ message)%string
  | errorsNew text => text
  end.

(** The classifier of the fixture: the error code the first test case
    returns for a VPC that does not exist. *)
Definition IsNotFoundError (e : error) : bool :=
  match e with
  | awserrNew code _ => String.eqb code "InvalidVpcID.NotFound"
  | errorsNew _ => false
  end.

(** [context.TODO()] and the one mocked AWS client. *)
Definition context := unit.
Definition ctx : context := tt.
Inductive Client := awsClient.

(** The fixture does not go through JSON: the raw provider config is the
    VPC id, empty when the config declares none. *)
Definition encode (c : InfrastructureConfig) : string :=
  match ID (VPC_ (Networks_ c)) with
  | Some id => id
  | None => ""
  end.

Definition InfrastructureConfigFromInfrastructure (infra : Infrastructure)
    : InfrastructureConfig * option error :=
  match ProviderConfig (Spec infra) with
  | Some raw =>
      ({| Networks_ := {| VPC_ := {| ID := if String.eqb raw "" then None else Some raw |} |} |},
       None)
  | None =>
      ({| Networks_ := {| VPC_ := {| ID := None |} |} |},
       Some (errorsNew "provider config is not set on the infrastructure resource"))
  end.

Definition infraWith (providerConfig : option string) : Infrastructure :=
  {| Name := name;
     Namespace := namespace;
     Spec := {| ProviderConfig := providerConfig;
                Region := region;
                SecretRef := {| SecretName := name; SecretNamespace := namespace |} |} |}.

(** The resource of the test, and the same resource declaring no VPC id. *)
Definition infra : Infrastructure :=
  infraWith (Some (encode {| Networks_ := {| VPC_ := {| ID := Some vpcID |} |} |})).

Definition infraNoVPC : Infrastructure :=
  infraWith (Some (encode {| Networks_ := {| VPC_ := {| ID := None |} |} |})).

Definition secret : Credentials :=
  {| AccessKeyID := accessKeyID; SecretAccessKey := secretAccessKey |}.

(** What the mocks are told to return. *)
Record Expect := {
  credentials : Credentials * option error;
  client : Client * option error;
  attribute : string -> bool * option error;
  internetGateway : string * option error
}.

(** The mocks keep no state of their own; the world counts the calls. *)
Definition mock (x : Expect) : Handler context error Client nat :=
  fun c =>
    match c return nat -> Resp error c * nat with
    | GetCredentialsFromSecretRef _ _ _ => fun n => (credentials x, S n)
    | NewClient _ _ _ => fun n => (client x, S n)
    | GetVPCAttribute _ _ _ a => fun n => (attribute x a, S n)
    | GetVPCInternetGateway _ _ _ => fun n => (internetGateway x, S n)
    | LoggerInfo _ => fun n => (tt, n)
    end.

Definition attributes (enableDnsSupport enableDnsHostnames : bool * option error)
    (a : string) : bool * option error :=
  if String.eqb a "enableDnsSupport" then enableDnsSupport else enableDnsHostnames.

Definition expect (attrs : string -> bool * option error)
    (gateway : string * option error) : Expect :=
  {| credentials := (secret, None);
     client := (awsClient, None);
     attribute := attrs;
     internetGateway := gateway |}.

Definition notFound : error := awserrNew "InvalidVpcID.NotFound" "".

(** "should forbid VPC that doesn't exist" *)
Definition vpcMissing : Expect :=
  expect (attributes (false, Some notFound)
                     (false, None))
         ("", None).

(** "should forbid VPC that exists but has wrong attribute values or no
    attached internet gateway" *)
Definition vpcWrong : Expect :=
  expect (attributes (false, None) (false, None)) ("", None).

(** "should allow VPC that exists and has correct attribute values and an
    attached internet gateway" *)
Definition vpcGood : Expect :=
  expect (attributes (true, None) (true, None)) (vpcID, None).

(** "should fail with InternalError if getting VPC attributes failed" *)
Definition vpcFetchFails : Expect :=
  expect (attributes (false, Some (errorsNew "test")) (false, None)) ("", None).

(** Further cases: no gateway on a VPC that is otherwise fine, a second
    attribute that cannot be fetched, and a secret that cannot be read. *)
Definition vpcNoGateway : Expect :=
  expect (attributes (true, None) (true, None)) ("", None).

Definition vpcSecondFetchFails : Expect :=
  expect (attributes (false, None) (false, Some (errorsNew "throttled")))
         ("", None).

Definition secretMissing : Expect :=
  {| credentials := ({| AccessKeyID := ""; SecretAccessKey := "" |},
                     Some (errorsNew "secret not found"));
     client := (awsClient, None);
     attribute := attributes (true, None) (true, None);
     internetGateway := (vpcID, None) |}.

(** The calls the mocks see. *)
Definition evCredentials (answer : Credentials * option error)
    : Event context error Client :=
  EvGetCredentialsFromSecretRef ctx
    {| SecretName := name; SecretNamespace := namespace |} false
    (fst answer) (snd answer).

Definition evClient : Event context error Client :=
  EvNewClient accessKeyID secretAccessKey region awsClient None.

Definition evLog : Event context error Client :=
  EvLoggerInfo "Validating infrastructure networks.vpc.id".

Definition evAttribute (a : string) (answer : bool * option error)
    : Event context error Client :=
  EvGetVPCAttribute awsClient ctx vpcID a (fst answer) (snd answer).

Definition evGateway (answer : string * option error)
    : Event context error Client :=
  EvGetVPCInternetGateway awsClient ctx vpcID (fst answer) (snd answer).

(** [cv.Validate(ctx, infra)] against the mocks: the report, the number
    of calls the mocks answered and the record of all calls. *)
Definition outcome (x : Expect) (infra : Infrastructure)
    : field.ErrorList * nat * list (Event context error Client) :=
  run (mock x)
      (Validate Client ErrorText ErrorText IsNotFoundError
         InfrastructureConfigFromInfrastructure ctx infra)
      0.

(** Cases beyond the test file: a gateway fetch that fails, here with the
    very error of a missing VPC, and the second test case after the secret
    was rotated. *)
Definition vpcGatewayFails : Expect :=
  expect (attributes (true, None) (false, None)) ("", Some notFound).

Definition rotated : Credentials :=
  {| AccessKeyID := "accessKeyID2"; SecretAccessKey := "secretAccessKey2" |}.

Definition vpcWrongRotated : Expect :=
  {| credentials := (rotated, None);
     client := (awsClient, None);
     attribute := attributes (false, None) (false, None);
     internetGateway := ("", None) |}.

End Fixture.

(* ------------------------------------------------------------------------- *)
(** ** The executions of the validator *)

Section Executions.

Variables (context error Client : Type).
Variable ErrorText : error -> string.
Variable FormatPlusV : error -> string.
Variable IsNotFoundError : error -> bool.
Variable InfrastructureConfigFromInfrastructure :
  Infrastructure -> InfrastructureConfig * option error.

Local Abbreviation Event := (Event context error Client).

(** The finding of an attribute that could not be fetched, of an attribute
    that is [value], of a gateway that could not be fetched and of the
    gateway [internetGatewayID], as [validateVPC] builds them. *)
Definition fetchFailed (fldPath : option field.Path) (vpcID attribute : string)
    (err : error) : field.Error :=
  if IsNotFoundError err then field.NotFound fldPath vpcID
  else field.InternalError fldPath
         ("could not get VPC attribute " ++ attribute ++ " for VPC " ++ vpcID
            ++ ": " ++ ErrorText err)%string.

Definition mustBeTrue (fldPath : option field.Path) (vpcID attribute : string)
    (value : bool) : field.ErrorList :=
  if negb value then
    [field.Invalid fldPath vpcID
       ("VPC attribute " ++ attribute ++ " must be set to true")%string]
  else [].

Definition gatewayFailed (fldPath : option field.Path) (vpcID : string)
    (err : error) : field.Error :=
  field.InternalError fldPath
    ("could not get internet gateway for VPC " ++ vpcID ++ ": " ++ ErrorText err)%string.

Definition mustBeAttached (fldPath : option field.Path) (vpcID : string)
    (internetGatewayID : string) : field.ErrorList :=
  if String.eqb internetGatewayID "" then
    [field.Invalid fldPath vpcID "no attached internet gateway found"]
  else [].

(** The four ways through [validateVPC]: the report and, in order, the
    calls made with their answers. *)
Inductive NetworkCheck (ctx : context) (awsClient : Client) (vpcID : string)
    (fldPath : option field.Path) : field.ErrorList -> list Event -> Prop :=
| FirstFetchFailed value err :
    NetworkCheck ctx awsClient vpcID fldPath
      [fetchFailed fldPath vpcID "enableDnsSupport" err]
      [EvGetVPCAttribute awsClient ctx vpcID "enableDnsSupport" value (Some err)]
| SecondFetchFailed value1 value2 err :
    NetworkCheck ctx awsClient vpcID fldPath
      (mustBeTrue fldPath vpcID "enableDnsSupport" value1
         ++ [fetchFailed fldPath vpcID "enableDnsHostnames" err])
      [EvGetVPCAttribute awsClient ctx vpcID "enableDnsSupport" value1 None;
       EvGetVPCAttribute awsClient ctx vpcID "enableDnsHostnames" value2 (Some err)]
| GatewayFetchFailed value1 value2 internetGatewayID err :
    NetworkCheck ctx awsClient vpcID fldPath
      (mustBeTrue fldPath vpcID "enableDnsSupport" value1
         ++ mustBeTrue fldPath vpcID "enableDnsHostnames" value2
         ++ [gatewayFailed fldPath vpcID err])
      [EvGetVPCAttribute awsClient ctx vpcID "enableDnsSupport" value1 None;
       EvGetVPCAttribute awsClient ctx vpcID "enableDnsHostnames" value2 None;
       EvGetVPCInternetGateway awsClient ctx vpcID internetGatewayID (Some err)]
| AllFetched value1 value2 internetGatewayID :
    NetworkCheck ctx awsClient vpcID fldPath
      (mustBeTrue fldPath vpcID "enableDnsSupport" value1
         ++ mustBeTrue fldPath vpcID "enableDnsHostnames" value2
         ++ mustBeAttached fldPath vpcID internetGatewayID)
      [EvGetVPCAttribute awsClient ctx vpcID "enableDnsSupport" value1 None;
       EvGetVPCAttribute awsClient ctx vpcID "enableDnsHostnames" value2 None;
       EvGetVPCInternetGateway awsClient ctx vpcID internetGatewayID None].

(** The five ways through [Validate]. *)
Inductive Validation (ctx : context) (infra : Infrastructure)
    : field.ErrorList -> list Event -> Prop :=
| NoConfig config err :
    InfrastructureConfigFromInfrastructure infra = (config, Some err) ->
    Validation ctx infra [field.InternalError None (ErrorText err)] []
| NoCredentials config credentials err :
    InfrastructureConfigFromInfrastructure infra = (config, None) ->
    Validation ctx infra
      [field.InternalError None
         ("could not get AWS credentials: " ++ FormatPlusV err)%string]
      [EvGetCredentialsFromSecretRef ctx (SecretRef (Spec infra)) false
         credentials (Some err)]
| NoClient config credentials awsClient err :
    InfrastructureConfigFromInfrastructure infra = (config, None) ->
    Validation ctx infra
      [field.InternalError None
         ("could not create AWS client: " ++ FormatPlusV err)%string]
      [EvGetCredentialsFromSecretRef ctx (SecretRef (Spec infra)) false
         credentials None;
       EvNewClient (AccessKeyID credentials) (SecretAccessKey credentials)
         (Region (Spec infra)) awsClient (Some err)]
| NoVPC config credentials awsClient :
    InfrastructureConfigFromInfrastructure infra = (config, None) ->
    ID (VPC_ (Networks_ config)) = None ->
    Validation ctx infra []
      [EvGetCredentialsFromSecretRef ctx (SecretRef (Spec infra)) false
         credentials None;
       EvNewClient (AccessKeyID credentials) (SecretAccessKey credentials)
         (Region (Spec infra)) awsClient None]
| WithVPC config credentials awsClient vpcID report tr :
    InfrastructureConfigFromInfrastructure infra = (config, None) ->
    ID (VPC_ (Networks_ config)) = Some vpcID ->
    NetworkCheck ctx awsClient vpcID (Some networks_vpc_id) report tr ->
    Validation ctx infra report
      (EvGetCredentialsFromSecretRef ctx (SecretRef (Spec infra)) false
         credentials None
       :: EvNewClient (AccessKeyID credentials) (SecretAccessKey credentials)
            (Region (Spec infra)) awsClient None
       :: EvLoggerInfo "Validating infrastructure networks.vpc.id"
       :: tr).

(** Two records of calls agree when a call made in both got the same
    answer in both. *)
Definition agree (tr1 tr2 : list Event) : Prop :=
  forall e1 e2, In e1 tr1 -> In e2 tr2 -> query e1 = query e2 -> e1 = e2.

(** A finding encodes the failure of a call: an Internal finding whose
    detail ends with the text of the error, or the NotFound finding of an
    attribute fetch whose error is classified as not found. *)
Definition encodes (f : field.Error) (e : Event) (err : error) : Prop :=
  (field.Type_ f = field.ErrorTypeInternal
   /\ exists prefix,
        field.Detail f = (prefix ++ ErrorText err)%string
        \/ field.Detail f = (prefix ++ FormatPlusV err)%string)
  \/ (field.Type_ f = field.ErrorTypeNotFound
      /\ isAttributeFetch e = true /\ IsNotFoundError err = true).

(** An attribute was probed and did not pass: the fetch failed, or it
    returned [false]. *)
Definition failedProbe (e : Event) : bool :=
  match e with
  | EvGetVPCAttribute _ _ _ _ value err =>
      match err with Some _ => true | None => negb value end
  | _ => false
  end.

(** The finding [f] reports the failed probe [e] of the network [vpcID]. *)
Definition reports (fldPath : option field.Path) (e : Event) (f : field.Error) : Prop :=
  match e with
  | EvGetVPCAttribute _ _ vpcID attribute value (Some err) =>
      f = fetchFailed fldPath vpcID attribute err
  | EvGetVPCAttribute _ _ vpcID attribute value None =>
      value = false /\
      f = field.Invalid fldPath vpcID
            ("VPC attribute " ++ attribute ++ " must be set to true")%string
  | _ => False
  end.

End Executions.

(* ------------------------------------------------------------------------- *)
(** ** What a record of calls shows *)

Section Observations.

Variables (context error Client : Type).

Local Abbreviation Event := (Event context error Client).

(** The calls of one [Validate], in the order of the source, given what the
    credential resolver and the factory returned and the declared VPC. *)
Definition protocol (ctx : context) (infra : Infrastructure)
    (credentials : Credentials) (awsClient : Client) (vpcID : string)
    : list (Call context Client) :=
  [GetCredentialsFromSecretRef ctx (SecretRef (Spec infra)) false;
   NewClient (AccessKeyID credentials) (SecretAccessKey credentials)
     (Region (Spec infra));
   LoggerInfo "Validating infrastructure networks.vpc.id";
   GetVPCAttribute awsClient ctx vpcID "enableDnsSupport";
   GetVPCAttribute awsClient ctx vpcID "enableDnsHostnames";
   GetVPCInternetGateway awsClient ctx vpcID].

(** The call returned no error and, for a cloud call, the answer the
    validator wants: the attribute is true, a gateway is attached. *)
Definition passed (e : Event) : bool :=
  match e with
  | EvGetVPCAttribute _ _ _ _ value None => value
  | EvGetVPCInternetGateway _ _ _ internetGatewayID None =>
      negb (String.eqb internetGatewayID "")
  | EvGetCredentialsFromSecretRef _ _ _ _ None => true
  | EvNewClient _ _ _ _ None => true
  | EvLoggerInfo _ => true
  | _ => false
  end.

(** What the cloud said, without who asked: the attribute with its value
    and error, or the gateway with its error. *)
Inductive Answer :=
| AttributeAnswer (attribute : string) (value : bool) (err : option error)
| GatewayAnswer (internetGatewayID : string) (err : option error).

Definition answer (e : Event) : list Answer :=
  match e with
  | EvGetVPCAttribute _ _ _ attribute value err => [AttributeAnswer attribute value err]
  | EvGetVPCInternetGateway _ _ _ internetGatewayID err =>
      [GatewayAnswer internetGatewayID err]
  | _ => []
  end.

Variable ErrorText : error -> string.
Variable IsNotFoundError : error -> bool.

(** The findings one answer of the cloud leads to. *)
Definition verdict (fldPath : option field.Path) (vpcID : string) (a : Answer)
    : field.ErrorList :=
  match a with
  | AttributeAnswer attribute _ (Some err) =>
      [fetchFailed ErrorText IsNotFoundError fldPath vpcID attribute err]
  | AttributeAnswer attribute value None => mustBeTrue fldPath vpcID attribute value
  | GatewayAnswer _ (Some err) => [gatewayFailed ErrorText fldPath vpcID err]
  | GatewayAnswer internetGatewayID None =>
      mustBeAttached fldPath vpcID internetGatewayID
  end.

End Observations.

(* ------------------------------------------------------------------------- *)
(** ** Properties of the report, for every handler and every world *)

Section Properties.

Variables (context error Client : Type).
Variable ErrorText : error -> string.
Variable FormatPlusV : error -> string.
Variable IsNotFoundError : error -> bool.
Variable InfrastructureConfigFromInfrastructure :
  Infrastructure -> InfrastructureConfig * option error.
Variable W : Type.
Variable h : Handler context error Client W.

Local Abbreviation Prog := (Prog context error Client).
Local Abbreviation validateVPC :=
  (validateVPC (Client:=Client) (context:=context) ErrorText IsNotFoundError).
Local Abbreviation Validate :=
  (Validate Client ErrorText FormatPlusV IsNotFoundError
     InfrastructureConfigFromInfrastructure (context:=context)).
Local Abbreviation NetworkCheck :=
  (NetworkCheck (Client:=Client) (context:=context) ErrorText IsNotFoundError).
Local Abbreviation Validation :=
  (Validation (Client:=Client) (context:=context) ErrorText FormatPlusV
     IsNotFoundError InfrastructureConfigFromInfrastructure).

Lemma run_bind A B (p : Prog A) (f : A -> Prog B) w :
  run h (bind p f) w =
  let '(a, w1, t1) := run h p w in
  let '(b, w2, t2) := run h (f a) w1 in
  (b, w2, t1 ++ t2).
Proof.
  revert w. induction p as [a | c k IH]; intros w; simpl.
  - destruct (run h (f a) w) as [[b w2] t2]. reflexivity.
  - destruct (h c w) as [r w1]. rewrite IH.
    destruct (run h (k r) w1) as [[a w2] t1].
    destruct (run h (f a) w2) as [[b w3] t2]. reflexivity.
Qed.

Lemma append_assoc (a b c : string) : ((a ++ b) ++ c = a ++ (b ++ c))%string.
Proof. induction a as [| x a IH]; simpl; [reflexivity | now rewrite IH]. Qed.

Local Arguments String.append : simpl never.

Ltac instance_of c :=
  let X := fresh in
  pose proof c as X;
  unfold fetchFailed, mustBeTrue, mustBeAttached, gatewayFailed in X;
  repeat match goal with E : _ = _ |- _ => rewrite E in X end;
  simpl in X; exact X.

Lemma validateVPC_run ctx awsClient vpcID fldPath w report w' tr :
  run h (validateVPC ctx awsClient vpcID fldPath) w = (report, w', tr) ->
  NetworkCheck ctx awsClient vpcID fldPath report tr.
Proof.
  unfold validateVPC. simpl. intros H.
  destruct (h _ w) as [[value1 [err1|]] w1]; simpl in H.
  { destruct (IsNotFoundError err1) eqn:NF; simpl in H; inversion H; subst;
      instance_of (FirstFetchFailed ErrorText IsNotFoundError ctx awsClient
                     vpcID fldPath value1 err1). }
  destruct value1; simpl in H;
    destruct (h _ w1) as [[value2 [err2|]] w2]; simpl in H;
    try (destruct (IsNotFoundError err2) eqn:NF; simpl in H; inversion H; subst;
         match goal with
         | |- context [EvGetVPCAttribute _ _ _ "enableDnsSupport" ?v None] =>
             instance_of (SecondFetchFailed ErrorText IsNotFoundError ctx
                            awsClient vpcID fldPath v value2 err2)
         end);
    destruct value2; simpl in H;
    destruct (h _ w2) as [[internetGatewayID [err3|]] w3]; simpl in H;
    try (inversion H; subst;
         match goal with
         | |- context [EvGetVPCAttribute _ _ _ "enableDnsSupport" ?v1 None
                       :: EvGetVPCAttribute _ _ _ "enableDnsHostnames" ?v2 None :: _] =>
             instance_of (GatewayFetchFailed ErrorText IsNotFoundError ctx
                            awsClient vpcID fldPath v1 v2 internetGatewayID err3)
         end);
    destruct (String.eqb internetGatewayID "") eqn:GW; simpl in H;
    inversion H; subst;
    match goal with
    | |- context [EvGetVPCAttribute _ _ _ "enableDnsSupport" ?v1 None
                  :: EvGetVPCAttribute _ _ _ "enableDnsHostnames" ?v2 None :: _] =>
        instance_of (AllFetched ErrorText IsNotFoundError ctx
                       awsClient vpcID fldPath v1 v2 internetGatewayID)
    end.
Qed.

Lemma Validate_run ctx infra w report w' tr :
  run h (Validate ctx infra) w = (report, w', tr) ->
  Validation ctx infra report tr.
Proof.
  unfold Validate.
  destruct (InfrastructureConfigFromInfrastructure infra) as [config [err|]] eqn:Config;
    cbn [run bind call event fst snd app]; intros H.
  { inversion H; subst. eapply NoConfig; eassumption. }
  destruct (h _ w) as [[credentials [err|]] w1]; cbn [run bind call event fst snd app] in H.
  { inversion H; subst. eapply NoCredentials; eassumption. }
  destruct (h _ w1) as [[awsClient [err|]] w2]; cbn [run bind call event fst snd app] in H.
  { inversion H; subst. eapply NoClient; eassumption. }
  destruct (ID (VPC_ (Networks_ config))) as [vpcID|] eqn:Id;
    cbn [run bind call event fst snd app] in H.
  2: { inversion H; subst. eapply NoVPC; eassumption. }
  destruct (h _ w2) as [[] w3].
  rewrite run_bind in H.
  destruct (run h (validateVPC ctx awsClient vpcID (Some (field.NewPath "networks" ["vpc"; "id"]))) w3)
    as [[errs w4] tr'] eqn:Check.
  cbn [run bind call event fst snd app] in H. inversion H; subst. rewrite app_nil_r.
  eapply WithVPC; try eassumption.
  eapply validateVPC_run; eassumption.
Qed.

Ltac unstack :=
  repeat match goal with
  | H : ?pre ++ _ :: _ = _ |- _ =>
      is_var pre; destruct pre; simpl in H; inversion H; clear H; subst
  | H : _ :: _ = ?pre ++ _ :: _ |- _ => symmetry in H
  | H : [] = ?pre ++ _ :: _ |- _ => symmetry in H
  end.

Ltac same_config :=
  repeat match goal with
  | H1 : ?x = (_, _), H2 : ?x = (_, _) |- _ =>
      rewrite H1 in H2; inversion H2; clear H2; subst
  | H1 : ?x = Some _, H2 : ?x = Some _ |- _ =>
      rewrite H1 in H2; inversion H2; clear H2; subst
  | H1 : ?x = Some _, H2 : ?x = None |- _ =>
      rewrite H1 in H2; discriminate H2
  end.

Ltac executions H :=
  apply Validate_run in H; inversion H; subst; clear H; same_config;
  try match goal with
  | N : NetworkCheck _ _ _ _ _ _ |- _ => inversion N; subst; clear N
  end.

Lemma networks_vpc_id_String : field.String networks_vpc_id = "networks.vpc.id".
Proof. reflexivity. Qed.

Ltac members :=
  repeat match goal with
  | H : In _ [] |- _ => destruct H
  | H : In _ (_ :: _) |- _ =>
      destruct H as [H | H]; [try discriminate H; inversion H; clear H; subst |]
  end.

Ltac findings :=
  unfold fetchFailed, mustBeTrue, mustBeAttached, gatewayFailed in *;
  repeat match goal with
  | E : IsNotFoundError _ = _ |- _ => rewrite E in *
  | E : String.eqb _ _ = _ |- _ => rewrite E in *
  end;
  simpl.

Lemma eqb_empty_false (s : string) : s <> "" -> String.eqb s "" = false.
Proof. intros N. destruct (String.eqb_spec s ""); congruence. Qed.

(** C1: when an attribute fetch fails with a not-found error, the report
    holds exactly one NotFound finding, at networks.vpc.id with the network
    identifier as its value, and that fetch is the last call made: no further
    attribute and no gateway is fetched. *)
Theorem not_found_short_circuits
    ctx infra config vpcID w report w' tr
    pre post awsClient ctx' vpcID' attribute value err :
  InfrastructureConfigFromInfrastructure infra = (config, None) ->
  ID (VPC_ (Networks_ config)) = Some vpcID ->
  run h (Validate ctx infra) w = (report, w', tr) ->
  tr = pre ++ EvGetVPCAttribute awsClient ctx' vpcID' attribute value (Some err) :: post ->
  IsNotFoundError err = true ->
  field.ofType field.ErrorTypeNotFound report
    = [field.NotFound (Some networks_vpc_id) vpcID]
  /\ field.String networks_vpc_id = "networks.vpc.id"
  /\ post = [].
Proof.
  intros Config Id Run Tr NF.
  executions Run; unstack; findings; auto.
  destruct value1; auto.
Qed.

(** C2, amended: when both DNS attributes are fetched and both are false,
    the report begins with the two Invalid findings of the attributes, in
    probe order and both at networks.vpc.id; the gateway is then fetched, and
    only its outcome follows them: an Internal finding when the fetch fails,
    a third Invalid finding when no gateway is attached, nothing otherwise. *)
Theorem both_attributes_false
    ctx infra config vpcID w report w' tr
    awsClient1 ctx1 vpcID1 awsClient2 ctx2 vpcID2 :
  InfrastructureConfigFromInfrastructure infra = (config, None) ->
  ID (VPC_ (Networks_ config)) = Some vpcID ->
  run h (Validate ctx infra) w = (report, w', tr) ->
  In (EvGetVPCAttribute awsClient1 ctx1 vpcID1 "enableDnsSupport" false None) tr ->
  In (EvGetVPCAttribute awsClient2 ctx2 vpcID2 "enableDnsHostnames" false None) tr ->
  exists awsClient internetGatewayID err,
    In (EvGetVPCInternetGateway awsClient ctx vpcID internetGatewayID err) tr
    /\ report =
         [field.Invalid (Some networks_vpc_id) vpcID
            "VPC attribute enableDnsSupport must be set to true";
          field.Invalid (Some networks_vpc_id) vpcID
            "VPC attribute enableDnsHostnames must be set to true"]
         ++ match err with
            | Some err =>
                [field.InternalError (Some networks_vpc_id)
                   ("could not get internet gateway for VPC " ++ vpcID ++ ": "
                      ++ ErrorText err)%string]
            | None =>
                if String.eqb internetGatewayID "" then
                  [field.Invalid (Some networks_vpc_id) vpcID
                     "no attached internet gateway found"]
                else []
            end.
Proof.
  intros Config Id Run A1 A2.
  executions Run; members.
  - do 3 eexists. split; [do 5 right; left; reflexivity | reflexivity].
  - do 3 eexists. split; [do 5 right; left; reflexivity | reflexivity].
Qed.

(** C3: both DNS attributes true and a gateway attached: the report is
    empty. *)
Theorem valid_vpc_empty_report
    ctx infra config vpcID w report w' tr
    awsClient1 ctx1 vpcID1 awsClient2 ctx2 vpcID2 awsClient3 ctx3 vpcID3
    internetGatewayID :
  InfrastructureConfigFromInfrastructure infra = (config, None) ->
  ID (VPC_ (Networks_ config)) = Some vpcID ->
  run h (Validate ctx infra) w = (report, w', tr) ->
  In (EvGetVPCAttribute awsClient1 ctx1 vpcID1 "enableDnsSupport" true None) tr ->
  In (EvGetVPCAttribute awsClient2 ctx2 vpcID2 "enableDnsHostnames" true None) tr ->
  In (EvGetVPCInternetGateway awsClient3 ctx3 vpcID3 internetGatewayID None) tr ->
  internetGatewayID <> "" ->
  report = [].
Proof.
  intros Config Id Run A1 A2 G N.
  apply eqb_empty_false in N.
  executions Run; members; findings; reflexivity.
Qed.

(** C4: when the fetch of enableDnsSupport fails with an error that is not
    classified as not found, the report is one Internal finding whose detail
    names the attribute and the network identifier, and that fetch is the
    only call to the cloud: enableDnsHostnames and the gateway are never
    fetched. *)
Theorem first_fetch_error_short_circuits
    ctx infra config vpcID w report w' tr
    awsClient ctx' vpcID' value err :
  InfrastructureConfigFromInfrastructure infra = (config, None) ->
  ID (VPC_ (Networks_ config)) = Some vpcID ->
  run h (Validate ctx infra) w = (report, w', tr) ->
  In (EvGetVPCAttribute awsClient ctx' vpcID' "enableDnsSupport" value (Some err)) tr ->
  IsNotFoundError err = false ->
  report =
    [field.InternalError (Some networks_vpc_id)
       ("could not get VPC attribute " ++ "enableDnsSupport" ++ " for VPC "
          ++ vpcID ++ ": " ++ ErrorText err)%string]
  /\ filter (@isCloudCall _ _ _) tr =
       [EvGetVPCAttribute awsClient ctx' vpcID' "enableDnsSupport" value (Some err)].
Proof.
  intros Config Id Run A1 NF.
  executions Run; members; findings; auto.
Qed.

(** C5: both DNS attributes true and no gateway attached: the report is the
    one Invalid finding at networks.vpc.id saying so. *)
Theorem no_gateway_one_invalid
    ctx infra config vpcID w report w' tr
    awsClient1 ctx1 vpcID1 awsClient2 ctx2 vpcID2 awsClient3 ctx3 vpcID3 :
  InfrastructureConfigFromInfrastructure infra = (config, None) ->
  ID (VPC_ (Networks_ config)) = Some vpcID ->
  run h (Validate ctx infra) w = (report, w', tr) ->
  In (EvGetVPCAttribute awsClient1 ctx1 vpcID1 "enableDnsSupport" true None) tr ->
  In (EvGetVPCAttribute awsClient2 ctx2 vpcID2 "enableDnsHostnames" true None) tr ->
  In (EvGetVPCInternetGateway awsClient3 ctx3 vpcID3 "" None) tr ->
  report =
    [field.Invalid (Some networks_vpc_id) vpcID "no attached internet gateway found"]
  /\ field.String networks_vpc_id = "networks.vpc.id".
Proof.
  intros Config Id Run A1 A2 G.
  executions Run; members; findings; auto.
Qed.

(** C6, amended: a declared spec without a network identifier leads to no
    call to the cloud, and to an empty report when the credentials are
    resolved and the client is built; when one of the two fails, the report
    is the one Internal finding of that failure. *)
Theorem no_vpc_id_no_cloud_call ctx infra config w report w' tr :
  InfrastructureConfigFromInfrastructure infra = (config, None) ->
  ID (VPC_ (Networks_ config)) = None ->
  run h (Validate ctx infra) w = (report, w', tr) ->
  filter (@isCloudCall _ _ _) tr = []
  /\ ((forall e, In e tr -> failure e = None) -> report = [])
  /\ (forall e err, In e tr -> failure e = Some err ->
        exists what,
          report = [field.InternalError None (what ++ FormatPlusV err)%string]
          /\ (what = "could not get AWS credentials: "
              \/ what = "could not create AWS client: ")).
Proof.
  intros Config Id Run.
  executions Run; (split; [reflexivity | split]).
  - intros Ok. specialize (Ok _ (or_introl eq_refl)). discriminate Ok.
  - intros e err' I F. members; simpl in F; inversion F; subst. eauto.
  - intros Ok. specialize (Ok _ (or_intror (or_introl eq_refl))). discriminate Ok.
  - intros e err' I F. members; simpl in F; inversion F; subst. eauto.
  - reflexivity.
  - intros e err' I F. members; simpl in F; discriminate F.
Qed.

(** C7: in every execution of the network check, the report is the
    findings of the attribute probes followed by at most one finding of the
    gateway; each probe that failed (its fetch returned an error, or the
    value false) has exactly one finding, in probe order, and there are no
    others; and an attribute fetch that returned an error is the last call
    of the check. *)
Theorem every_failed_probe_reported ctx awsClient vpcID fldPath w report w' tr :
  run h (validateVPC ctx awsClient vpcID fldPath) w = (report, w', tr) ->
  exists probes gateway,
    report = probes ++ gateway
    /\ Forall2 (reports ErrorText IsNotFoundError fldPath)
         (filter (@failedProbe _ _ _) tr) probes
    /\ List.length gateway <= 1
    /\ (gateway <> [] -> exists e, In e tr /\ isGatewayFetch e = true)
    /\ (forall pre e post,
          tr = pre ++ e :: post ->
          isAttributeFetch e = true -> failure e <> None -> post = []).
Proof.
  intros Run. apply validateVPC_run in Run. inversion Run; subst; clear Run.
  - exists [fetchFailed ErrorText IsNotFoundError fldPath vpcID "enableDnsSupport" err], [].
    repeat split; simpl; auto.
    + repeat constructor.
    + congruence.
    + intros; unstack; simpl in *; congruence.
  - exists (mustBeTrue fldPath vpcID "enableDnsSupport" value1
            ++ [fetchFailed ErrorText IsNotFoundError fldPath vpcID "enableDnsHostnames" err]), [].
    repeat split; simpl; auto.
    + rewrite app_nil_r. reflexivity.
    + destruct value1; simpl; repeat constructor.
    + congruence.
    + intros; unstack; simpl in *; congruence.
  - exists (mustBeTrue fldPath vpcID "enableDnsSupport" value1
            ++ mustBeTrue fldPath vpcID "enableDnsHostnames" value2),
           [gatewayFailed ErrorText fldPath vpcID err].
    repeat split; simpl; auto.
    + rewrite app_assoc. reflexivity.
    + destruct value1, value2; simpl; repeat constructor.
    + intros _. eexists. split; [do 2 right; left; reflexivity | reflexivity].
    + intros; unstack; simpl in *; congruence.
  - exists (mustBeTrue fldPath vpcID "enableDnsSupport" value1
            ++ mustBeTrue fldPath vpcID "enableDnsHostnames" value2),
           (mustBeAttached fldPath vpcID internetGatewayID).
    repeat split; simpl; auto.
    + rewrite app_assoc. reflexivity.
    + destruct value1, value2; simpl; repeat constructor.
    + unfold mustBeAttached. destruct (String.eqb internetGatewayID ""); simpl; lia.
    + intros _. eexists. split; [do 2 right; left; reflexivity | reflexivity].
    + intros; unstack; simpl in *; congruence.
Qed.

Lemma fetchFailed_encodes fldPath (awsClient : Client) (ctx : context)
    vpcID attribute value err :
  encodes ErrorText FormatPlusV IsNotFoundError
    (fetchFailed ErrorText IsNotFoundError fldPath vpcID attribute err)
    (EvGetVPCAttribute awsClient ctx vpcID attribute value (Some err)) err.
Proof.
  unfold encodes, fetchFailed. destruct (IsNotFoundError err) eqn:NF.
  - right. auto.
  - left. split; [reflexivity |].
    exists ("could not get VPC attribute " ++ attribute ++ " for VPC " ++ vpcID ++ ": ")%string.
    left. simpl. now rewrite !append_assoc.
Qed.

Lemma gatewayFailed_encodes fldPath (e : Event context error Client) vpcID err :
  encodes ErrorText FormatPlusV IsNotFoundError
    (gatewayFailed ErrorText fldPath vpcID err) e err.
Proof.
  left. split; [reflexivity |].
  exists ("could not get internet gateway for VPC " ++ vpcID ++ ": ")%string.
  left. simpl. now rewrite !append_assoc.
Qed.

Lemma verbose_encodes fldPath what (e : Event context error Client) err :
  encodes ErrorText FormatPlusV IsNotFoundError
    (field.InternalError fldPath (what ++ FormatPlusV err)%string) e err.
Proof. left. split; [reflexivity |]. exists what. now right. Qed.

(** C8: [Validate] returns a report whatever the collaborators answer; its
    findings are Internal, NotFound or Invalid; a config that cannot be
    extracted gives the one Internal finding of that error; and every call
    that returned an error is encoded by the last finding of the report. *)
Theorem failures_become_findings ctx infra w :
  exists report w' tr,
    run h (Validate ctx infra) w = (report, w', tr)
    /\ Forall (fun f => field.Type_ f = field.ErrorTypeInternal
                        \/ field.Type_ f = field.ErrorTypeNotFound
                        \/ field.Type_ f = field.ErrorTypeInvalid) report
    /\ (forall config err,
          InfrastructureConfigFromInfrastructure infra = (config, Some err) ->
          report = [field.InternalError None (ErrorText err)])
    /\ (forall e err, In e tr -> failure e = Some err ->
          exists before f,
            report = before ++ [f] /\ encodes ErrorText FormatPlusV IsNotFoundError f e err).
Proof.
  destruct (run h (Validate ctx infra) w) as [[report w'] tr] eqn:Run.
  exists report, w', tr. split; [reflexivity |].
  executions Run; (split; [| split]).
  all: try (match goal with |- Forall _ _ => idtac end;
            unfold fetchFailed, mustBeTrue, mustBeAttached, gatewayFailed;
            repeat match goal with
                   | |- context [IsNotFoundError ?e] => destruct (IsNotFoundError e)
                   | |- context [negb ?v] => is_var v; destruct v
                   | |- context [String.eqb ?a ?b] => destruct (String.eqb a b)
                   end;
            simpl; repeat (apply Forall_cons; [simpl; auto |]); apply Forall_nil).
  all: try (intros config' err' Config';
            match goal with
            | C : InfrastructureConfigFromInfrastructure _ = (_, _) |- _ =>
                rewrite Config' in C; inversion C; subst; reflexivity
            end).
  all: intros e err' I F; members; simpl in F; try discriminate F;
       inversion F; subst; clear F.
  - exists []. eexists. split; [reflexivity | apply verbose_encodes].
  - exists []. eexists. split; [reflexivity | apply verbose_encodes].
  - exists []. eexists. split; [reflexivity | apply fetchFailed_encodes].
  - eexists. eexists. split; [reflexivity | apply fetchFailed_encodes].
  - eexists. eexists. split; [rewrite app_assoc; reflexivity | apply gatewayFailed_encodes].
Qed.

(** C10: findings appended before a short circuit are kept: when
    enableDnsSupport is fetched as false and the fetch of enableDnsHostnames
    then fails, the report is the Invalid finding of the first followed by
    the NotFound or Internal finding of the second.  And every finding is
    either the only finding of a run that never reached the cloud (an
    Internal finding without field path), or a finding of the network check,
    at networks.vpc.id. *)
Theorem findings_kept_and_scoped ctx infra w report w' tr :
  run h (Validate ctx infra) w = (report, w', tr) ->
  (forall awsClient1 ctx1 vpcID awsClient2 ctx2 vpcID2 value2 err,
     In (EvGetVPCAttribute awsClient1 ctx1 vpcID "enableDnsSupport" false None) tr ->
     In (EvGetVPCAttribute awsClient2 ctx2 vpcID2 "enableDnsHostnames" value2 (Some err)) tr ->
     report =
       [field.Invalid (Some networks_vpc_id) vpcID
          "VPC attribute enableDnsSupport must be set to true";
        if IsNotFoundError err then field.NotFound (Some networks_vpc_id) vpcID
        else field.InternalError (Some networks_vpc_id)
               ("could not get VPC attribute " ++ "enableDnsHostnames"
                  ++ " for VPC " ++ vpcID ++ ": " ++ ErrorText err)%string])
  /\ (forall f, In f report ->
        (filter (@isCloudCall _ _ _) tr = [] /\ report = [f]
         /\ field.Type_ f = field.ErrorTypeInternal /\ field.Field f = None)
        \/ (filter (@isCloudCall _ _ _) tr <> []
            /\ field.Field f = Some networks_vpc_id)).
Proof.
  intros Run. executions Run; split.
  all: try (intros awsClient1 ctx1 vpcID1 awsClient2 ctx2 vpcID2 v2 err' A1 A2;
            members; reflexivity).
  all: intros f I.
  all: try (left; members; simpl; auto; fail).
  all: right; (split; [simpl; discriminate |]).
  all: unfold fetchFailed, mustBeTrue, mustBeAttached, gatewayFailed in I;
       repeat match type of I with
              | context [IsNotFoundError ?e] => destruct (IsNotFoundError e)
              | context [negb ?v] => is_var v; destruct v
              | context [String.eqb ?a ?b] => destruct (String.eqb a b)
              end;
       simpl in I;
       repeat (destruct I as [I | I]; [subst f; reflexivity |]); contradiction.
Qed.

(** X1: a call that returns an error is the last call [Validate] makes,
    whichever collaborator it was. *)
Theorem failed_call_is_last ctx infra w report w' tr pre e post err :
  run h (Validate ctx infra) w = (report, w', tr) ->
  tr = pre ++ e :: post ->
  failure e = Some err ->
  post = [].
Proof.
  intros Run Tr F.
  executions Run; unstack; simpl in F; try discriminate F; reflexivity.
Qed.

(** X2: the calls of a run are an initial segment of the six calls of the
    protocol, each made at most once and in this order: the client is built
    from the credentials the resolver returned and the region of the
    resource, and every cloud call goes to the client the factory returned,
    with the caller's context, about the declared VPC. *)
Theorem calls_follow_protocol ctx infra w report w' tr credentials awsClient vpcID :
  run h (Validate ctx infra) w = (report, w', tr) ->
  (forall ctx' secretRef allowDNSKeys credentials' err,
     In (EvGetCredentialsFromSecretRef ctx' secretRef allowDNSKeys credentials' err) tr ->
     credentials' = credentials) ->
  (forall accessKeyID secretAccessKey region awsClient' err,
     In (EvNewClient accessKeyID secretAccessKey region awsClient' err) tr ->
     awsClient' = awsClient) ->
  (forall config vpcID',
     InfrastructureConfigFromInfrastructure infra = (config, None) ->
     ID (VPC_ (Networks_ config)) = Some vpcID' -> vpcID' = vpcID) ->
  exists rest,
    map (@query _ _ _) tr ++ rest = protocol ctx infra credentials awsClient vpcID.
Proof.
  intros Run Cr Cl Id.
  executions Run; unfold protocol; simpl;
    repeat match goal with
    | |- context [NewClient (AccessKeyID ?d) _ _] =>
        lazymatch d with credentials => fail | _ => idtac end;
        rewrite (Cr _ _ _ d _ (or_introl eq_refl))
    | |- context [GetVPCAttribute ?cl _ _ _] =>
        lazymatch cl with awsClient => fail | _ => idtac end;
        rewrite (Cl _ _ _ cl _ (or_intror (or_introl eq_refl)))
    | C : InfrastructureConfigFromInfrastructure infra = (_, None),
      I : ID _ = Some ?v |- _ =>
        lazymatch v with vpcID => fail | _ => idtac end;
        rewrite (Id _ _ C I) in *
    end;
    eexists; reflexivity.
Qed.

(** X3: the gateway is fetched exactly when both attributes were fetched
    without error, whatever their values. *)
Theorem gateway_fetched_iff_attributes_fetched ctx infra w report w' tr :
  run h (Validate ctx infra) w = (report, w', tr) ->
  (exists awsClient ctx' vpcID internetGatewayID err,
     In (EvGetVPCInternetGateway awsClient ctx' vpcID internetGatewayID err) tr)
  <->
  (exists awsClient1 ctx1 vpcID1 value1 awsClient2 ctx2 vpcID2 value2,
     In (EvGetVPCAttribute awsClient1 ctx1 vpcID1 "enableDnsSupport" value1 None) tr
     /\ In (EvGetVPCAttribute awsClient2 ctx2 vpcID2 "enableDnsHostnames" value2 None) tr).
Proof.
  intros Run.
  executions Run; split.
  all: try (intros (? & ? & ? & ? & ? & I); members; fail).
  all: try (intros (? & ? & ? & ? & ? & ? & ? & ? & I1 & I2); members; fail).
  all: try (intros _; do 8 eexists; split;
            [do 3 right; left; reflexivity | do 4 right; left; reflexivity]).
  all: intros _; do 5 eexists; do 5 right; left; reflexivity.
Qed.

(** X4: an error of the gateway fetch is never classified: whatever
    [IsNotFoundError] says of it, the report ends with the Internal finding
    of the gateway, everything before it is Invalid, and no finding is
    NotFound. *)
Theorem gateway_error_is_internal
    ctx infra config vpcID w report w' tr
    awsClient ctx' vpcID' internetGatewayID err :
  InfrastructureConfigFromInfrastructure infra = (config, None) ->
  ID (VPC_ (Networks_ config)) = Some vpcID ->
  run h (Validate ctx infra) w = (report, w', tr) ->
  In (EvGetVPCInternetGateway awsClient ctx' vpcID' internetGatewayID (Some err)) tr ->
  exists before,
    report = before ++
      [field.InternalError (Some networks_vpc_id)
         ("could not get internet gateway for VPC " ++ vpcID ++ ": "
            ++ ErrorText err)%string]
    /\ Forall (fun f => field.Type_ f = field.ErrorTypeInvalid) before
    /\ field.ofType field.ErrorTypeNotFound report = [].
Proof.
  intros Config Id Run G.
  executions Run; members.
  rewrite app_assoc. eexists. split; [reflexivity |].
  repeat match goal with
  | |- context [mustBeTrue _ _ _ ?v] => is_var v; destruct v
  end;
    simpl;
    (split; [repeat (apply Forall_cons; [reflexivity |]); apply Forall_nil
            | reflexivity]).
Qed.

(** X5: the report is empty exactly when the config was extracted and every
    call made passed: none returned an error, every attribute fetched is
    true and the gateway fetched is not empty. *)
Theorem empty_report_iff_all_passed ctx infra w report w' tr :
  run h (Validate ctx infra) w = (report, w', tr) ->
  report = [] <->
  snd (InfrastructureConfigFromInfrastructure infra) = None
  /\ forallb (@passed _ _ _) tr = true.
Proof.
  intros Run.
  executions Run;
    repeat match goal with
    | C : InfrastructureConfigFromInfrastructure infra = _ |- _ =>
        rewrite C; clear C
    end;
    unfold fetchFailed, mustBeTrue, mustBeAttached, gatewayFailed; simpl;
    repeat match goal with
    | |- context [IsNotFoundError ?e] => destruct (IsNotFoundError e)
    | |- context [negb ?v] => is_var v; destruct v
    | |- context [String.eqb ?a ?b] => destruct (String.eqb a b)
    end;
    simpl; split; try (intros [? ?]); try intros ?;
    try discriminate; auto.
Qed.

Ltac values :=
  unfold fetchFailed, mustBeTrue, mustBeAttached, gatewayFailed;
  repeat match goal with
  | |- context [IsNotFoundError ?e] => destruct (IsNotFoundError e)
  | |- context [negb ?v] => is_var v; destruct v
  | |- context [String.eqb ?a ?b] => destruct (String.eqb a b)
  end;
  simpl.

Ltac all_of_type :=
  repeat (apply Forall_cons; [simpl; auto |]); apply Forall_nil.

Ltac nothing_failed :=
  split;
  [ intros N; exfalso; apply N; reflexivity
  | intros [[err' E] | (e' & err' & I & F)];
    [ match goal with
      | C : InfrastructureConfigFromInfrastructure _ = _ |- _ =>
          rewrite C in E; discriminate E
      end
    | members; simpl in F; discriminate F ] ].

Tactic Notation "something_failed" integer(n) :=
  split; [intros _ | intros _; discriminate];
  right; do 2 eexists; split; [do n right; left; reflexivity | reflexivity].

(** X6: the report is a run of Invalid findings followed by at most one
    Internal or NotFound finding, three findings at most; and it ends with
    an Internal or NotFound finding exactly when the config could not be
    extracted or some call returned an error. *)
Theorem report_shape ctx infra w report w' tr :
  run h (Validate ctx infra) w = (report, w', tr) ->
  exists invalids terminal,
    report = invalids ++ terminal
    /\ Forall (fun f => field.Type_ f = field.ErrorTypeInvalid) invalids
    /\ Forall (fun f => field.Type_ f = field.ErrorTypeInternal
                        \/ field.Type_ f = field.ErrorTypeNotFound) terminal
    /\ List.length terminal <= 1
    /\ List.length report <= 3
    /\ (terminal <> [] <->
        (exists err, snd (InfrastructureConfigFromInfrastructure infra) = Some err)
        \/ (exists e err, In e tr /\ failure e = Some err)).
Proof.
  intros Run. executions Run.
  - exists [], [field.InternalError None (ErrorText err)].
    repeat split; simpl; auto; try all_of_type; try discriminate.
    intros _. left. exists err.
    match goal with C : _ = (_, _) |- _ => rewrite C end. reflexivity.
  - eexists [], [_]. split; [reflexivity |].
    split; [all_of_type |]. split; [all_of_type |].
    split; [simpl; lia |]. split; [simpl; lia |]. something_failed 0.
  - eexists [], [_]. split; [reflexivity |].
    split; [all_of_type |]. split; [all_of_type |].
    split; [simpl; lia |]. split; [simpl; lia |]. something_failed 1.
  - exists [], []. split; [reflexivity |].
    split; [all_of_type |]. split; [all_of_type |].
    split; [simpl; lia |]. split; [simpl; lia |]. nothing_failed.
  - eexists [], [_]. split; [reflexivity |].
    split; [all_of_type |]. split; [values; all_of_type |].
    split; [simpl; lia |]. split; [simpl; lia |]. something_failed 3.
  - eexists _, [_]. split; [reflexivity |].
    split; [values; all_of_type |]. split; [values; all_of_type |].
    split; [simpl; lia |]. split; [values; lia |]. something_failed 4.
  - rewrite app_assoc. eexists _, [_]. split; [reflexivity |].
    split; [values; all_of_type |]. split; [values; all_of_type |].
    split; [simpl; lia |]. split; [values; lia |]. something_failed 5.
  - eexists _, []. split; [rewrite app_nil_r; reflexivity |].
    split; [values; all_of_type |]. split; [all_of_type |].
    split; [simpl; lia |]. split; [values; lia |]. nothing_failed.
Qed.

(** X7: every finding of the network check is scoped to the path handed to
    it, whatever that path is; NotFound and Invalid findings carry the VPC id
    as their value, Internal findings carry none. *)
Theorem findings_carry_path_and_value ctx awsClient vpcID fldPath w report w' tr f :
  run h (validateVPC ctx awsClient vpcID fldPath) w = (report, w', tr) ->
  In f report ->
  field.Field f = fldPath
  /\ field.BadValue f =
       (if field.ErrorType_eqb (field.Type_ f) field.ErrorTypeInternal
        then None else Some vpcID).
Proof.
  intros Run I. apply validateVPC_run in Run. inversion Run; subst; clear Run.
  all: unfold fetchFailed, mustBeTrue, mustBeAttached, gatewayFailed in I;
       repeat match type of I with
              | context [IsNotFoundError ?e] => destruct (IsNotFoundError e)
              | context [negb ?v] => is_var v; destruct v
              | context [String.eqb ?a ?b] => destruct (String.eqb a b)
              end;
       simpl in I;
       repeat (destruct I as [I | I]; [subst f; split; reflexivity |]);
       contradiction.
Qed.

(** When the config is extracted, the credentials resolved and the client
    built, the report is the findings of the answers of the cloud, answer by
    answer in the order of the calls. *)
Lemma report_of_answers ctx infra config w report w' tr :
  InfrastructureConfigFromInfrastructure infra = (config, None) ->
  run h (Validate ctx infra) w = (report, w', tr) ->
  (forall e, In e tr -> isCloudCall e = false -> failure e = None) ->
  report =
    flat_map (verdict ErrorText IsNotFoundError (Some networks_vpc_id)
                match ID (VPC_ (Networks_ config)) with
                | Some vpcID => vpcID
                | None => ""
                end)
             (flat_map (@answer _ _ _) tr).
Proof.
  intros Config Run Ok.
  executions Run;
    try match goal with
        | I : ID _ = _ |- _ => rewrite I
        end;
    simpl; rewrite ?app_nil_r; try reflexivity.
  - specialize (Ok _ (or_introl eq_refl) eq_refl). discriminate Ok.
  - specialize (Ok _ (or_intror (or_introl eq_refl)) eq_refl). discriminate Ok.
Qed.

End Properties.

(* ------------------------------------------------------------------------- *)
(** ** The report is a function of the answers *)

Section Determinism.

Variables (context error Client : Type).

Local Abbreviation Prog := (Prog context error Client).
Local Abbreviation Event := (Event context error Client).

Lemma query_event (c : Call context Client) (r : Resp error c) :
  query (event c r) = c.
Proof. destruct c; reflexivity. Qed.

Lemma event_inj (c : Call context Client) (r1 r2 : Resp error c) :
  event c r1 = event c r2 -> r1 = r2.
Proof.
  destruct c; simpl in *; intros E;
    try (destruct r1, r2; simpl in E; congruence).
Qed.

Lemma agree_tail (e1 e2 : Event) t1 t2 :
  agree (e1 :: t1) (e2 :: t2) -> agree t1 t2.
Proof. intros A x y I1 I2. apply A; right; assumption. Qed.

(** Any program: two runs whose records agree return the same value and
    made the same calls with the same answers. *)
Lemma run_agree A (p : Prog A) W1 W2 (h1 : Handler context error Client W1)
    (h2 : Handler context error Client W2) :
  forall w1 w2 a1 w1' t1 a2 w2' t2,
    run h1 p w1 = (a1, w1', t1) ->
    run h2 p w2 = (a2, w2', t2) ->
    agree t1 t2 ->
    a1 = a2 /\ t1 = t2.
Proof.
  induction p as [a | c k IH]; simpl; intros w1 w2 a1 w1' t1 a2 w2' t2 R1 R2 Ag.
  - inversion R1; inversion R2; subst. auto.
  - destruct (h1 c w1) as [r1 v1]. destruct (h2 c w2) as [r2 v2].
    destruct (run h1 (k r1) v1) as [[b1 u1] s1] eqn:K1.
    destruct (run h2 (k r2) v2) as [[b2 u2] s2] eqn:K2.
    inversion R1; inversion R2; subst.
    assert (r1 = r2) as ->.
    { apply event_inj, Ag; [left; reflexivity | left; reflexivity |].
      now rewrite !query_event. }
    destruct (IH r2 _ _ _ _ _ _ _ _ K1 K2 (agree_tail Ag)) as [-> ->].
    auto.
Qed.

Variable ErrorText : error -> string.
Variable FormatPlusV : error -> string.
Variable IsNotFoundError : error -> bool.
Variable InfrastructureConfigFromInfrastructure :
  Infrastructure -> InfrastructureConfig * option error.

(** C9: two calls of [Validate] on the same resource, in any two states of
    the world, in which every collaborator answers a call made in both the
    same way, return the same findings in the same order (and make the same
    calls). *)
Theorem Validate_twice W1 W2 (h1 : Handler context error Client W1)
    (h2 : Handler context error Client W2)
    ctx infra w1 w2 report1 w1' tr1 report2 w2' tr2 :
  run h1 (Validate Client ErrorText FormatPlusV IsNotFoundError
            InfrastructureConfigFromInfrastructure ctx infra) w1
    = (report1, w1', tr1) ->
  run h2 (Validate Client ErrorText FormatPlusV IsNotFoundError
            InfrastructureConfigFromInfrastructure ctx infra) w2
    = (report2, w2', tr2) ->
  agree tr1 tr2 ->
  report1 = report2 /\ tr1 = tr2.
Proof. apply run_agree. Qed.

End Determinism.

(* ------------------------------------------------------------------------- *)
(** ** The report depends on the answers of the cloud only *)

Section Independence.

Variables (context error Client : Type).
Variable ErrorText : error -> string.
Variable FormatPlusV : error -> string.
Variable IsNotFoundError : error -> bool.
Variable InfrastructureConfigFromInfrastructure :
  Infrastructure -> InfrastructureConfig * option error.
Variables (W1 W2 : Type).
Variable h1 : Handler context error Client W1.
Variable h2 : Handler context error Client W2.

Local Abbreviation Validate :=
  (Validate Client ErrorText FormatPlusV IsNotFoundError
     InfrastructureConfigFromInfrastructure (context:=context)).

(** X8: which credentials were resolved, which client the factory
    returned and which context the caller passed never show in the report:
    two runs on the same resource in which credentials and client were
    obtained, and in which the cloud gave the same answers, return the same
    report. *)
Theorem report_depends_on_answers_only
    ctx1 ctx2 infra w1 w2 report1 w1' tr1 report2 w2' tr2 :
  run h1 (Validate ctx1 infra) w1 = (report1, w1', tr1) ->
  run h2 (Validate ctx2 infra) w2 = (report2, w2', tr2) ->
  (forall e, In e tr1 -> isCloudCall e = false -> failure e = None) ->
  (forall e, In e tr2 -> isCloudCall e = false -> failure e = None) ->
  flat_map (@answer _ _ _) tr1 = flat_map (@answer _ _ _) tr2 ->
  report1 = report2.
Proof.
  intros Run1 Run2 Ok1 Ok2 Same.
  destruct (InfrastructureConfigFromInfrastructure infra) as [config [err |]] eqn:Config.
  - apply Validate_run in Run1. apply Validate_run in Run2.
    inversion Run1; inversion Run2; subst; congruence.
  - eapply eq_trans;
      [eapply report_of_answers; [exact Config | exact Run1 | exact Ok1] |].
    rewrite Same. symmetry.
    eapply report_of_answers; [exact Config | exact Run2 | exact Ok2].
Qed.

End Independence.

(* ------------------------------------------------------------------------- *)
(** ** The test cases *)

Import Fixture.

Lemma not_found_short_circuits_witness :
  Fixture.outcome vpcMissing infra =
    ([field.NotFound (Some networks_vpc_id) vpcID], 3,
     [evCredentials (secret, None); evClient; evLog]
       ++ evAttribute "enableDnsSupport" (false, Some notFound) :: [])
  /\ IsNotFoundError notFound = true
  /\ field.ofType field.ErrorTypeNotFound [field.NotFound (Some networks_vpc_id) vpcID]
       = [field.NotFound (Some networks_vpc_id) vpcID]
  /\ field.String networks_vpc_id = "networks.vpc.id"
  /\ @nil (Event context error Client) = [].
Proof.
  split; [reflexivity |]. split; [reflexivity |].
  eapply not_found_short_circuits with
    (ErrorText := ErrorText) (FormatPlusV := ErrorText)
    (IsNotFoundError := IsNotFoundError)
    (InfrastructureConfigFromInfrastructure := InfrastructureConfigFromInfrastructure)
    (h := mock vpcMissing) (w := 0) (ctx := ctx) (infra := infra)
    (pre := [evCredentials (secret, None); evClient; evLog]);
    reflexivity.
Defined.

(** The second test case: three Invalid findings, not two. *)
Lemma exactly_two_invalid_counterexample :
  exists config report w' tr,
    InfrastructureConfigFromInfrastructure infra = (config, None)
    /\ ID (VPC_ (Networks_ config)) = Some vpcID
    /\ Fixture.outcome vpcWrong infra = (report, w', tr)
    /\ In (evAttribute "enableDnsSupport" (false, None)) tr
    /\ In (evAttribute "enableDnsHostnames" (false, None)) tr
    /\ List.length (field.ofType field.ErrorTypeInvalid report) = 3
    /\ List.length (field.ofType field.ErrorTypeInvalid report) <> 2.
Proof.
  do 4 eexists. split; [reflexivity |]. split; [reflexivity |].
  split; [reflexivity |]. simpl. intuition discriminate.
Qed.

Lemma both_attributes_false_witness :
  In (evAttribute "enableDnsSupport" (false, None))
     (snd (Fixture.outcome vpcWrong infra))
  /\ In (evAttribute "enableDnsHostnames" (false, None))
        (snd (Fixture.outcome vpcWrong infra))
  /\ exists awsClient internetGatewayID err,
       In (EvGetVPCInternetGateway awsClient ctx vpcID internetGatewayID err)
          (snd (Fixture.outcome vpcWrong infra))
       /\ fst (fst (Fixture.outcome vpcWrong infra)) =
            [field.Invalid (Some networks_vpc_id) vpcID
               "VPC attribute enableDnsSupport must be set to true";
             field.Invalid (Some networks_vpc_id) vpcID
               "VPC attribute enableDnsHostnames must be set to true"]
            ++ match err with
               | Some err =>
                   [field.InternalError (Some networks_vpc_id)
                      ("could not get internet gateway for VPC " ++ vpcID ++ ": "
                         ++ ErrorText err)%string]
               | None =>
                   if String.eqb internetGatewayID "" then
                     [field.Invalid (Some networks_vpc_id) vpcID
                        "no attached internet gateway found"]
                   else []
               end.
Proof.
  assert (In (evAttribute "enableDnsSupport" (false, None))
             (snd (Fixture.outcome vpcWrong infra))) as A1
    by (vm_compute; auto 10).
  assert (In (evAttribute "enableDnsHostnames" (false, None))
             (snd (Fixture.outcome vpcWrong infra))) as A2
    by (vm_compute; auto 10).
  split; [exact A1 |]. split; [exact A2 |].
  eapply both_attributes_false with
    (FormatPlusV := ErrorText) (IsNotFoundError := IsNotFoundError)
    (InfrastructureConfigFromInfrastructure := InfrastructureConfigFromInfrastructure)
    (h := mock vpcWrong) (w := 0) (infra := infra);
    [reflexivity | reflexivity | reflexivity | exact A1 | exact A2].
Defined.

Lemma valid_vpc_empty_report_witness :
  Fixture.outcome vpcGood infra =
    ([], 5,
     [evCredentials (secret, None); evClient; evLog;
      evAttribute "enableDnsSupport" (true, None);
      evAttribute "enableDnsHostnames" (true, None);
      evGateway (vpcID, None)])
  /\ vpcID <> ""
  /\ fst (fst (Fixture.outcome vpcGood infra)) = [].
Proof.
  split; [reflexivity |]. split; [discriminate |].
  eapply valid_vpc_empty_report with
    (ErrorText := ErrorText) (FormatPlusV := ErrorText)
    (IsNotFoundError := IsNotFoundError)
    (InfrastructureConfigFromInfrastructure := InfrastructureConfigFromInfrastructure)
    (h := mock vpcGood) (w := 0) (ctx := ctx) (infra := infra)
    (awsClient1 := awsClient) (ctx1 := ctx) (vpcID1 := vpcID)
    (awsClient2 := awsClient) (ctx2 := ctx) (vpcID2 := vpcID)
    (awsClient3 := awsClient) (ctx3 := ctx) (vpcID3 := vpcID)
    (internetGatewayID := vpcID);
    [reflexivity | reflexivity | reflexivity
     | vm_compute; auto 10 | vm_compute; auto 10 | vm_compute; auto 10
     | discriminate].
Defined.

Lemma first_fetch_error_short_circuits_witness :
  Fixture.outcome vpcFetchFails infra =
    ([field.InternalError (Some networks_vpc_id)
        "could not get VPC attribute enableDnsSupport for VPC vpc-123456: test"],
     3,
     [evCredentials (secret, None); evClient; evLog;
      evAttribute "enableDnsSupport" (false, Some (errorsNew "test"))])
  /\ IsNotFoundError (errorsNew "test") = false
  /\ filter (@isCloudCall _ _ _) (snd (Fixture.outcome vpcFetchFails infra))
       = [evAttribute "enableDnsSupport" (false, Some (errorsNew "test"))].
Proof.
  split; [reflexivity |]. split; [reflexivity |].
  eapply first_fetch_error_short_circuits with
    (ErrorText := ErrorText) (FormatPlusV := ErrorText)
    (IsNotFoundError := IsNotFoundError)
    (InfrastructureConfigFromInfrastructure := InfrastructureConfigFromInfrastructure)
    (h := mock vpcFetchFails) (w := 0) (ctx := ctx) (infra := infra);
    [reflexivity | reflexivity | reflexivity | vm_compute; auto 10 | reflexivity].
Defined.

Lemma no_gateway_one_invalid_witness :
  Fixture.outcome vpcNoGateway infra =
    ([field.Invalid (Some networks_vpc_id) vpcID "no attached internet gateway found"],
     5,
     [evCredentials (secret, None); evClient; evLog;
      evAttribute "enableDnsSupport" (true, None);
      evAttribute "enableDnsHostnames" (true, None);
      evGateway ("", None)])
  /\ field.String networks_vpc_id = "networks.vpc.id".
Proof.
  split; [reflexivity |].
  eapply no_gateway_one_invalid with
    (ErrorText := ErrorText) (FormatPlusV := ErrorText)
    (IsNotFoundError := IsNotFoundError)
    (InfrastructureConfigFromInfrastructure := InfrastructureConfigFromInfrastructure)
    (h := mock vpcNoGateway) (w := 0) (ctx := ctx) (infra := infra)
    (awsClient1 := awsClient) (ctx1 := ctx) (vpcID1 := vpcID)
    (awsClient2 := awsClient) (ctx2 := ctx) (vpcID2 := vpcID)
    (awsClient3 := awsClient) (ctx3 := ctx) (vpcID3 := vpcID);
    [reflexivity | reflexivity | reflexivity
     | vm_compute; auto 10 | vm_compute; auto 10 | vm_compute; auto 10].
Defined.

(** No VPC id is declared and the secret cannot be read: the report is not
    empty. *)
Lemma no_vpc_id_empty_report_counterexample :
  exists config,
    InfrastructureConfigFromInfrastructure infraNoVPC = (config, None)
    /\ ID (VPC_ (Networks_ config)) = None
    /\ Fixture.outcome secretMissing infraNoVPC =
         ([field.InternalError None "could not get AWS credentials: secret not found"],
          1,
          [evCredentials (credentials secretMissing)])
    /\ fst (fst (Fixture.outcome secretMissing infraNoVPC)) <> [].
Proof.
  eexists. repeat split; try reflexivity. discriminate.
Qed.

Lemma no_vpc_id_no_cloud_call_witness :
  Fixture.outcome vpcGood infraNoVPC =
    ([], 2, [evCredentials (secret, None); evClient])
  /\ filter (@isCloudCall _ _ _) (snd (Fixture.outcome vpcGood infraNoVPC)) = []
  /\ ((forall e, In e (snd (Fixture.outcome vpcGood infraNoVPC)) -> failure e = None) ->
      fst (fst (Fixture.outcome vpcGood infraNoVPC)) = [])
  /\ (forall e err,
        In e (snd (Fixture.outcome vpcGood infraNoVPC)) -> failure e = Some err ->
        exists what,
          fst (fst (Fixture.outcome vpcGood infraNoVPC)) =
            [field.InternalError None (what ++ ErrorText err)%string]
          /\ (what = "could not get AWS credentials: "
              \/ what = "could not create AWS client: ")).
Proof.
  split; [reflexivity |].
  eapply no_vpc_id_no_cloud_call with
    (ErrorText := ErrorText) (FormatPlusV := ErrorText)
    (IsNotFoundError := IsNotFoundError)
    (InfrastructureConfigFromInfrastructure := InfrastructureConfigFromInfrastructure)
    (h := mock vpcGood) (w := 0) (ctx := ctx) (infra := infraNoVPC);
    reflexivity.
Defined.

Lemma every_failed_probe_reported_witness :
  run (mock vpcSecondFetchFails)
      (validateVPC ErrorText IsNotFoundError ctx awsClient vpcID (Some networks_vpc_id))
      3
    = ([field.Invalid (Some networks_vpc_id) vpcID
          "VPC attribute enableDnsSupport must be set to true";
        field.InternalError (Some networks_vpc_id)
          "could not get VPC attribute enableDnsHostnames for VPC vpc-123456: throttled"],
       5,
       [evAttribute "enableDnsSupport" (false, None);
        evAttribute "enableDnsHostnames" (false, Some (errorsNew "throttled"))])
  /\ exists probes gateway,
       [field.Invalid (Some networks_vpc_id) vpcID
          "VPC attribute enableDnsSupport must be set to true";
        field.InternalError (Some networks_vpc_id)
          "could not get VPC attribute enableDnsHostnames for VPC vpc-123456: throttled"]
         = probes ++ gateway
       /\ Forall2 (reports ErrorText IsNotFoundError (Some networks_vpc_id))
            [evAttribute "enableDnsSupport" (false, None);
             evAttribute "enableDnsHostnames" (false, Some (errorsNew "throttled"))]
            probes
       /\ List.length gateway <= 1
       /\ (gateway <> [] ->
           exists e, In e [evAttribute "enableDnsSupport" (false, None);
                           evAttribute "enableDnsHostnames"
                             (false, Some (errorsNew "throttled"))]
                     /\ isGatewayFetch e = true)
       /\ (forall pre e post,
             [evAttribute "enableDnsSupport" (false, None);
              evAttribute "enableDnsHostnames" (false, Some (errorsNew "throttled"))]
               = pre ++ e :: post ->
             isAttributeFetch e = true -> failure e <> None -> post = []).
Proof.
  split; [reflexivity |].
  exact (every_failed_probe_reported ErrorText IsNotFoundError
           (mock vpcSecondFetchFails) ctx awsClient vpcID (Some networks_vpc_id) 3
           (report :=
              [field.Invalid (Some networks_vpc_id) vpcID
                 "VPC attribute enableDnsSupport must be set to true";
               field.InternalError (Some networks_vpc_id)
                 "could not get VPC attribute enableDnsHostnames for VPC vpc-123456: throttled"])
           (w' := 5)
           (tr :=
              [evAttribute "enableDnsSupport" (false, None);
               evAttribute "enableDnsHostnames" (false, Some (errorsNew "throttled"))])
           eq_refl).
Defined.

(** The second call starts in the world the first one left. *)
Lemma Validate_twice_witness :
  agree (snd (Fixture.outcome vpcWrong infra))
        (snd (run (mock vpcWrong)
                (Validate Client ErrorText ErrorText IsNotFoundError
                   InfrastructureConfigFromInfrastructure ctx infra) 5))
  /\ fst (fst (Fixture.outcome vpcWrong infra))
       = fst (fst (run (mock vpcWrong)
                     (Validate Client ErrorText ErrorText IsNotFoundError
                        InfrastructureConfigFromInfrastructure ctx infra) 5))
  /\ snd (Fixture.outcome vpcWrong infra)
       = snd (run (mock vpcWrong)
                (Validate Client ErrorText ErrorText IsNotFoundError
                   InfrastructureConfigFromInfrastructure ctx infra) 5).
Proof.
  assert (agree (snd (Fixture.outcome vpcWrong infra))
                (snd (run (mock vpcWrong)
                        (Validate Client ErrorText ErrorText IsNotFoundError
                           InfrastructureConfigFromInfrastructure ctx infra) 5)))
    as Ag.
  { intros e1 e2 I1 I2 Q. vm_compute in I1, I2.
    repeat (destruct I1 as [<- | I1]); try contradiction;
      repeat (destruct I2 as [<- | I2]); try contradiction;
      first [reflexivity | discriminate Q]. }
  split; [exact Ag |].
  eapply Validate_twice with
    (ErrorText := ErrorText) (FormatPlusV := ErrorText)
    (IsNotFoundError := IsNotFoundError)
    (InfrastructureConfigFromInfrastructure := InfrastructureConfigFromInfrastructure)
    (h1 := mock vpcWrong) (h2 := mock vpcWrong) (ctx := ctx) (infra := infra)
    (w1 := 0) (w2 := 5) (w1' := 5) (w2' := 10);
    [reflexivity | reflexivity | exact Ag].
Defined.

Lemma findings_kept_and_scoped_witness :
  Fixture.outcome vpcSecondFetchFails infra =
    ([field.Invalid (Some networks_vpc_id) vpcID
        "VPC attribute enableDnsSupport must be set to true";
      field.InternalError (Some networks_vpc_id)
        "could not get VPC attribute enableDnsHostnames for VPC vpc-123456: throttled"],
     4,
     [evCredentials (secret, None); evClient; evLog;
      evAttribute "enableDnsSupport" (false, None);
      evAttribute "enableDnsHostnames" (false, Some (errorsNew "throttled"))])
  /\ In (evAttribute "enableDnsSupport" (false, None))
        (snd (Fixture.outcome vpcSecondFetchFails infra))
  /\ In (evAttribute "enableDnsHostnames" (false, Some (errorsNew "throttled")))
        (snd (Fixture.outcome vpcSecondFetchFails infra))
  /\ Forall (fun f => field.Field f = Some networks_vpc_id)
       (fst (fst (Fixture.outcome vpcSecondFetchFails infra))).
Proof.
  split; [reflexivity |].
  destruct (findings_kept_and_scoped ErrorText ErrorText IsNotFoundError
              InfrastructureConfigFromInfrastructure
              (mock vpcSecondFetchFails) ctx infra 0
              (report := fst (fst (Fixture.outcome vpcSecondFetchFails infra)))
              (w' := 4)
              (tr := snd (Fixture.outcome vpcSecondFetchFails infra))
              eq_refl) as [Kept Scoped].
  split; [vm_compute; auto 10 |]. split; [vm_compute; auto 10 |].
  apply Forall_forall. intros f I.
  destruct (Scoped f I) as [[Quiet _] | [_ At]]; [discriminate Quiet | exact At].
Defined.

Lemma failed_call_is_last_witness :
  Fixture.outcome vpcFetchFails infra =
    ([field.InternalError (Some networks_vpc_id)
        "could not get VPC attribute enableDnsSupport for VPC vpc-123456: test"],
     3,
     [evCredentials (secret, None); evClient; evLog]
       ++ evAttribute "enableDnsSupport" (false, Some (errorsNew "test")) :: [])
  /\ failure (evAttribute "enableDnsSupport" (false, Some (errorsNew "test")))
       = Some (errorsNew "test")
  /\ @nil (Event context error Client) = [].
Proof.
  split; [reflexivity |]. split; [reflexivity |].
  eapply failed_call_is_last with
    (ErrorText := ErrorText) (FormatPlusV := ErrorText)
    (IsNotFoundError := IsNotFoundError)
    (InfrastructureConfigFromInfrastructure := InfrastructureConfigFromInfrastructure)
    (h := mock vpcFetchFails) (w := 0) (ctx := ctx) (infra := infra)
    (pre := [evCredentials (secret, None); evClient; evLog])
    (e := evAttribute "enableDnsSupport" (false, Some (errorsNew "test")));
    reflexivity.
Defined.

Lemma calls_follow_protocol_witness :
  map (@query _ _ _) (snd (Fixture.outcome vpcGood infra))
    = protocol ctx infra secret awsClient vpcID
  /\ exists rest,
       map (@query _ _ _) (snd (Fixture.outcome vpcGood infra)) ++ rest
         = protocol ctx infra secret awsClient vpcID.
Proof.
  split; [reflexivity |].
  eapply calls_follow_protocol with
    (ErrorText := ErrorText) (FormatPlusV := ErrorText)
    (IsNotFoundError := IsNotFoundError)
    (InfrastructureConfigFromInfrastructure := InfrastructureConfigFromInfrastructure)
    (h := mock vpcGood) (w := 0) (report := []) (w' := 5).
  - reflexivity.
  - intros c r d cr e I. vm_compute in I.
    repeat (destruct I as [I | I];
            [try discriminate I; inversion I; reflexivity |]).
    contradiction.
  - intros k s r cl e I. destruct cl. reflexivity.
  - intros config v C I. vm_compute in C. inversion C; subst.
    vm_compute in I. inversion I. reflexivity.
Defined.

Lemma gateway_fetched_iff_attributes_fetched_witness :
  In (evGateway ("", None)) (snd (Fixture.outcome vpcWrong infra))
  /\ exists awsClient1 ctx1 vpcID1 value1 awsClient2 ctx2 vpcID2 value2,
       In (EvGetVPCAttribute awsClient1 ctx1 vpcID1 "enableDnsSupport" value1 None)
          (snd (Fixture.outcome vpcWrong infra))
       /\ In (EvGetVPCAttribute awsClient2 ctx2 vpcID2 "enableDnsHostnames" value2 None)
             (snd (Fixture.outcome vpcWrong infra)).
Proof.
  assert (In (evGateway ("", None)) (snd (Fixture.outcome vpcWrong infra))) as G
    by (vm_compute; auto 10).
  split; [exact G |].
  apply (proj1 (gateway_fetched_iff_attributes_fetched ErrorText ErrorText
                  IsNotFoundError InfrastructureConfigFromInfrastructure
                  (mock vpcWrong) ctx infra 0
                  (report := fst (fst (Fixture.outcome vpcWrong infra)))
                  (w' := 5) (tr := snd (Fixture.outcome vpcWrong infra))
                  eq_refl)).
  do 5 eexists. exact G.
Defined.

Lemma gateway_error_is_internal_witness :
  IsNotFoundError notFound = true
  /\ In (evGateway ("", Some notFound)) (snd (Fixture.outcome vpcGatewayFails infra))
  /\ exists before,
       fst (fst (Fixture.outcome vpcGatewayFails infra)) = before ++
         [field.InternalError (Some networks_vpc_id)
            ("could not get internet gateway for VPC " ++ vpcID ++ ": "
               ++ ErrorText notFound)%string]
       /\ Forall (fun f => field.Type_ f = field.ErrorTypeInvalid) before
       /\ field.ofType field.ErrorTypeNotFound
            (fst (fst (Fixture.outcome vpcGatewayFails infra))) = [].
Proof.
  assert (In (evGateway ("", Some notFound))
             (snd (Fixture.outcome vpcGatewayFails infra))) as G
    by (vm_compute; auto 10).
  split; [reflexivity |]. split; [exact G |].
  eapply gateway_error_is_internal with
    (FormatPlusV := ErrorText) (IsNotFoundError := IsNotFoundError)
    (InfrastructureConfigFromInfrastructure := InfrastructureConfigFromInfrastructure)
    (h := mock vpcGatewayFails) (w := 0) (ctx := ctx) (infra := infra);
    [reflexivity | reflexivity | reflexivity | exact G].
Defined.

Lemma empty_report_iff_all_passed_witness :
  snd (InfrastructureConfigFromInfrastructure infra) = None
  /\ forallb (@passed _ _ _) (snd (Fixture.outcome vpcGood infra)) = true
  /\ fst (fst (Fixture.outcome vpcGood infra)) = [].
Proof.
  split; [reflexivity |]. split; [reflexivity |].
  apply (proj2 (empty_report_iff_all_passed ErrorText ErrorText
                  IsNotFoundError InfrastructureConfigFromInfrastructure
                  (mock vpcGood) ctx infra 0
                  (report := fst (fst (Fixture.outcome vpcGood infra)))
                  (w' := 5) (tr := snd (Fixture.outcome vpcGood infra))
                  eq_refl)).
  split; reflexivity.
Defined.

Lemma report_shape_witness :
  exists invalids terminal,
    fst (fst (Fixture.outcome vpcSecondFetchFails infra)) = invalids ++ terminal
    /\ Forall (fun f => field.Type_ f = field.ErrorTypeInvalid) invalids
    /\ Forall (fun f => field.Type_ f = field.ErrorTypeInternal
                        \/ field.Type_ f = field.ErrorTypeNotFound) terminal
    /\ List.length terminal <= 1
    /\ List.length (fst (fst (Fixture.outcome vpcSecondFetchFails infra))) <= 3
    /\ (terminal <> [] <->
        (exists err, snd (InfrastructureConfigFromInfrastructure infra) = Some err)
        \/ (exists e err,
              In e (snd (Fixture.outcome vpcSecondFetchFails infra))
              /\ failure e = Some err)).
Proof.
  exact (report_shape ErrorText ErrorText IsNotFoundError
           InfrastructureConfigFromInfrastructure
           (mock vpcSecondFetchFails) ctx infra 0
           (report := fst (fst (Fixture.outcome vpcSecondFetchFails infra)))
           (w' := 4) (tr := snd (Fixture.outcome vpcSecondFetchFails infra))
           eq_refl).
Defined.

Lemma findings_carry_path_and_value_witness :
  In (field.NotFound None vpcID)
     (fst (fst (run (mock vpcMissing)
                  (validateVPC ErrorText IsNotFoundError ctx awsClient vpcID None) 0)))
  /\ field.Field (field.NotFound None vpcID) = None
  /\ field.BadValue (field.NotFound None vpcID) =
       (if field.ErrorType_eqb (field.Type_ (field.NotFound None vpcID))
             field.ErrorTypeInternal
        then None else Some vpcID).
Proof.
  assert (In (field.NotFound None vpcID)
             (fst (fst (run (mock vpcMissing)
                          (validateVPC ErrorText IsNotFoundError ctx awsClient
                             vpcID None) 0)))) as I
    by (vm_compute; auto).
  split; [exact I |].
  eapply findings_carry_path_and_value with
    (ErrorText := ErrorText) (IsNotFoundError := IsNotFoundError)
    (h := mock vpcMissing) (ctx := ctx) (awsClient := awsClient) (w := 0)
    (w' := 1)
    (tr := [evAttribute "enableDnsSupport" (false, Some notFound)]);
    [reflexivity | exact I].
Defined.

Lemma report_depends_on_answers_only_witness :
  snd (Fixture.outcome vpcWrong infra) <> snd (Fixture.outcome vpcWrongRotated infra)
  /\ flat_map (@answer _ _ _) (snd (Fixture.outcome vpcWrong infra))
       = flat_map (@answer _ _ _) (snd (Fixture.outcome vpcWrongRotated infra))
  /\ fst (fst (Fixture.outcome vpcWrong infra))
       = fst (fst (Fixture.outcome vpcWrongRotated infra)).
Proof.
  split; [vm_compute; discriminate |]. split; [reflexivity |].
  eapply report_depends_on_answers_only with
    (ErrorText := ErrorText) (FormatPlusV := ErrorText)
    (IsNotFoundError := IsNotFoundError)
    (InfrastructureConfigFromInfrastructure := InfrastructureConfigFromInfrastructure)
    (h1 := mock vpcWrong) (h2 := mock vpcWrongRotated)
    (ctx1 := ctx) (ctx2 := ctx) (infra := infra)
    (w1 := 0) (w2 := 0) (w1' := 5) (w2' := 5).
  - reflexivity.
  - reflexivity.
  - intros e I C. vm_compute in I.
    repeat (destruct I as [<- | I]; [first [reflexivity | discriminate C] |]).
    contradiction.
  - intros e I C. vm_compute in I.
    repeat (destruct I as [<- | I]; [first [reflexivity | discriminate C] |]).
    contradiction.
  - reflexivity.
Defined.
